(** * The SIEM integrations package initializer

    Source: [src/tracecat/actions/integrations/siem/__init__.py].

    The file is a package initializer made of three relative
    [from .m import n] statements followed by the assignment of the
    export list [__all__].  Its meaning is entirely given by Python's
    import system, so the development has two layers:

    - [Py]: the fragment of Python's execution model that the initializer
      exercises (objects, insertion-ordered dictionaries, the module table,
      [from]-imports, name binding, star-imports);
    - [Siem]: the initializer itself, statement by statement, and the
      properties of the package it builds. *)

From Stdlib Require Import Ascii String.
From stdpp Require Import base option list strings gmap.

#[local] Set Warnings "-register-all".

Module Py.

(** ** Objects *)

(** The Python objects that can show up in the namespaces involved.
    Function objects and plain instances carry their identity; a module
    object is referred to by its fully qualified name, the key under which
    the module table holds its dictionary.  A list stands for its items:
    two list objects with the same items are the same value here. *)
Inductive value : Type :=
| VNone
| VStr (s : string)
| VList (items : list value)
| VFunction (addr : positive)
| VInstance (addr : positive)
| VModule (fullname : string).

(** [callable(v)] *)
Definition callable (v : value) : bool :=
  match v with
  | VFunction _ => true
  | _ => false
  end.

Definition is_str (v : value) : bool :=
  match v with
  | VStr _ => true
  | _ => false
  end.

(** ** Dictionaries

    A module's [__dict__].  Python dictionaries keep their keys in insertion
    order: assigning to a key that is present replaces the value where it
    stands, assigning to a new key appends it. *)
Definition namespace : Type := list (string * value).

Fixpoint dict_get (k : string) (d : namespace) : option value :=
  match d with
  | [] => None
  | (k', v) :: d' => if String.eqb k' k then Some v else dict_get k d'
  end.

Fixpoint dict_set (k : string) (v : value) (d : namespace) : namespace :=
  match d with
  | [] => [(k, v)]
  | (k', v') :: d' =>
      if String.eqb k' k then (k, v) :: d' else (k', v') :: dict_set k v d'
  end.

Definition dict_keys (d : namespace) : list string := map fst d.

(** The order in which the names of [names] were first bound in [d]. *)
Definition binding_order (names : list string) (d : namespace) : list string :=
  filter (λ k, k ∈ names) (dict_keys d).

(** [d'] has the keys of [d], in the same order, followed by new keys
    that are all taken from [allowed]. *)
Definition grows_within (allowed : list string) (d d' : namespace) : Prop :=
  ∃ new : list string,
    dict_keys d' = dict_keys d ++ new ∧
    ∀ k, k ∈ new → k ∈ allowed ∧ dict_get k d = None.

(** The names of [names] that [d] does not bind, in the order of
    [names]. *)
Fixpoint unbound (d : namespace) (names : list string) : list string :=
  match names with
  | [] => []
  | k :: rest =>
      match dict_get k d with
      | Some _ => unbound d rest
      | None => k :: unbound d rest
      end
  end.

(** ** Exceptions *)

Inductive exn : Type :=
| ModuleNotFoundError (fullname : string)
    (* No module named 'fullname' *)
| ImportError (name from_module : string)
    (* cannot import name 'name' from 'from_module' *)
| RaisedByModule (fullname what : string)
    (* exception [what] escaping the top-level code of module [fullname] *)
| AttributeError (name : string)
    (* module has no attribute 'name' *)
| TypeError (what : string).

Inductive result (A : Type) : Type :=
| Ok (a : A)
| Raise (e : exn).
Arguments Ok {A} a.
Arguments Raise {A} e.

(** ** Interpreter state

    [globals] is the dictionary of the module whose body is running (the
    names it binds are the attributes of that module); [sys_modules] is the
    table of the modules loaded so far, each with its dictionary. *)
Record state : Type := State {
  globals : namespace;
  sys_modules : gmap string namespace
}.

(** State and exception monad of statement execution. *)
Definition M (A : Type) : Type := state → result (A * state).

#[global] Instance M_ret : MRet M := λ A a st, Ok (a, st).

#[global] Instance M_bind : MBind M := λ A B f m st,
  match m st with
  | Ok (a, st') => f a st'
  | Raise e => Raise e
  end.

Definition raise {A : Type} (e : exn) : M A := λ _, Raise e.

(** Final state of a run, when it ends normally. *)
Definition exec (m : M ()) (st : state) : result state :=
  match m st with
  | Ok (_, st') => Ok st'
  | Raise e => Raise e
  end.

(** ** The import system *)

(** What the import system gets when it looks for a module that is not
    loaded yet and runs its top-level code: the module's dictionary, or the
    exception that escaped.  What the top-level code of such a module does
    beside filling its own dictionary is the business of that module and
    is not followed here. *)
Inductive load_outcome : Type :=
| Executed (ns : namespace)
| Failed (what : string).

Section ImportSystem.

(** The modules that can be found on the import path; [None] when there
    is no module of that name. *)
Variable find_module : string → option load_outcome.

(** Name resolution of a relative import of level 1 against
    [__package__]. *)
Definition resolve_name (package modname : string) : string :=
  package +:+ "." +:+ modname.

(** [import_module fullname child]: the module named [fullname], loaded
    if need be.  A module found in the table is returned as it is.
    Otherwise it is looked for and executed; when that succeeds it is
    entered in the table and bound, under its last name component
    [child], in the namespace of its parent package (Python Language
    Reference, 5.4.2 "Submodules"), which here is the running module. *)
Definition import_module (fullname child : string) : M namespace := λ st,
  match sys_modules st !! fullname with
  | Some ns => Ok (ns, st)
  | None =>
      match find_module fullname with
      | None => Raise (ModuleNotFoundError fullname)
      | Some (Failed what) => Raise (RaisedByModule fullname what)
      | Some (Executed ns) =>
          Ok (ns, {| globals := dict_set child (VModule fullname) (globals st);
                     sys_modules := <[fullname := ns]> (sys_modules st) |})
      end
  end.

(** [name = v] at module level. *)
Definition store_name (name : string) (v : value) : M () := λ st,
  Ok ((), {| globals := dict_set name v (globals st);
             sys_modules := sys_modules st |}).

(** [from .modname import name], executed in a module of [package]
    (Python Language Reference, 7.11): the module is imported, the
    attribute is read from it, and the object read is bound to the same
    name in the running module. *)
Definition import_from (package modname name : string) : M () :=
  ns ← import_module (resolve_name package modname) modname;
  match dict_get name ns with
  | Some v => store_name name v
  | None => raise (ImportError name (resolve_name package modname))
  end.

(** The dictionary that importing [fullname] yields in state [st]: the
    one in the module table, or else the one obtained by executing the
    module found on the import path. *)
Definition provides (st : state) (fullname : string) (ns : namespace) : Prop :=
  sys_modules st !! fullname = Some ns ∨
  (sys_modules st !! fullname = None ∧ find_module fullname = Some (Executed ns)).

(** The state a successful [from .modname import name] leaves. *)
Definition after_import (package modname name : string)
    (ns : namespace) (v : value) (st : state) : state :=
  let fullname := resolve_name package modname in
  {| globals :=
       dict_set name v
         match sys_modules st !! fullname with
         | Some _ => globals st
         | None => dict_set modname (VModule fullname) (globals st)
         end;
     sys_modules := <[fullname := ns]> (sys_modules st) |}.

(** Why a [from]-import can fail: the module cannot be found, its
    top-level code raises, or it lacks the attribute. *)
Definition import_failure (st : state) (fullname name : string) (e : exn) : Prop :=
  (e = ModuleNotFoundError fullname ∧
     sys_modules st !! fullname = None ∧ find_module fullname = None) ∨
  (∃ what, e = RaisedByModule fullname what ∧
     sys_modules st !! fullname = None ∧
     find_module fullname = Some (Failed what)) ∨
  (e = ImportError name fullname ∧
     ∃ ns, provides st fullname ns ∧ dict_get name ns = None).

End ImportSystem.

(** The module an exception is about. *)
Definition origin (e : exn) : option string :=
  match e with
  | ModuleNotFoundError fullname => Some fullname
  | ImportError _ from_module => Some from_module
  | RaisedByModule fullname _ => Some fullname
  | AttributeError _ => None
  | TypeError _ => None
  end.

(** ** Star-imports *)

Definition starts_with_underscore (s : string) : bool :=
  match s with
  | String c _ => Ascii.eqb c "_"%char
  | EmptyString => false
  end.

(** Binds in [target] the attributes of a module listed in [names]; a
    listed name that the module does not have is an [AttributeError]. *)
Fixpoint import_all_from (module : namespace) (names : list value)
    (target : namespace) : result namespace :=
  match names with
  | [] => Ok target
  | VStr n :: rest =>
      match dict_get n module with
      | Some v => import_all_from module rest (dict_set n v target)
      | None => Raise (AttributeError n)
      end
  | _ :: _ => Raise (TypeError "Item in __all__ must be str")
  end.

(** [from module import *], for a loaded module with dictionary [module]:
    the names of [__all__] when the module defines it, else every name
    that does not begin with an underscore. *)
Definition import_star (module target : namespace) : result namespace :=
  match dict_get "__all__" module with
  | Some (VList names) => import_all_from module names target
  | Some _ => Raise (TypeError "__all__ must be a sequence")
  | None =>
      import_all_from module
        (map VStr (filter (λ n, negb (starts_with_underscore n)) (dict_keys module)))
        target
  end.

(** The names a module exports through [__all__]. *)
Fixpoint str_items (items : list value) : option (list string) :=
  match items with
  | [] => Some []
  | VStr s :: rest => cons s <$> str_items rest
  | _ :: _ => None
  end.

Definition exported_names (module : namespace) : option (list string) :=
  match dict_get "__all__" module with
  | Some (VList items) => str_items items
  | _ => None
  end.

End Py.

Module Siem.
Import Py.

(** ** The initializer *)

(** [__package__] of the initializer, from its place in the source tree;
    the relative imports of its body are resolved against it. *)
Definition package : string := "tracecat.actions.integrations.siem".

(** [__all__ = ["list_datadog_alerts", "list_elastic_alerts",
                "acumen_list_elastic_alerts"]] *)
Definition __all__ : value :=
  VList [ VStr "list_datadog_alerts";
          VStr "list_elastic_alerts";
          VStr "acumen_list_elastic_alerts" ].

(** The body of [__init__.py], statement by statement. *)
Definition __init__ (find_module : string → option load_outcome) : M () :=
  import_from find_module package "datadog" "list_datadog_alerts";;
  import_from find_module package "elastic" "list_elastic_alerts";;
  import_from find_module package "acumen_elastic" "acumen_list_elastic_alerts";;
  store_name "__all__" __all__.

(** ** Vocabulary of the properties *)

(** Fully qualified name of a sibling module of the initializer. *)
Definition sibling (modname : string) : string := resolve_name package modname.

(** The three names of the public interface. *)
Definition public_names : list string :=
  [ "list_datadog_alerts"; "list_elastic_alerts"; "acumen_list_elastic_alerts" ].

(** The names of the three sibling modules, which loading binds in the
    package next to the names imported from them. *)
Definition submodule_names : list string :=
  [ "datadog"; "elastic"; "acumen_elastic" ].

(** The state in which the body ends when its three imports find
    dictionaries [ns1], [ns2], [ns3] holding objects [v1], [v2], [v3]. *)
Definition init_result (ns1 ns2 ns3 : namespace) (v1 v2 v3 : value)
    (st : state) : state :=
  let s1 := after_import package "datadog" "list_datadog_alerts" ns1 v1 st in
  let s2 := after_import package "elastic" "list_elastic_alerts" ns2 v2 s1 in
  let s3 :=
    after_import package "acumen_elastic" "acumen_list_elastic_alerts" ns3 v3 s2 in
  {| globals := dict_set "__all__" __all__ (globals s3);
     sys_modules := sys_modules s3 |}.

Section Siblings.

Variable find_module : string → option load_outcome.

(** Importing sibling [modname] yields a module in which [name] is a
    callable object. *)
Definition defines_callable (st : state) (modname name : string) : Prop :=
  ∃ ns v, provides find_module st (sibling modname) ns ∧
          dict_get name ns = Some v ∧ callable v = true.

(** Modelled from the spec: the sibling modules [datadog.py], [elastic.py]
    and [acumen_elastic.py] are absent from the sources at hand.  The spec
    describes the initializer as one that "re-exports three functions
    (list_datadog_alerts, list_elastic_alerts, acumen_list_elastic_alerts)
    from sibling modules", "each presumably a callable": each sibling can be
    imported and defines the function named after it. *)
Definition siblings_as_specified (st : state) : Prop :=
  defines_callable st "datadog" "list_datadog_alerts" ∧
  defines_callable st "elastic" "list_elastic_alerts" ∧
  defines_callable st "acumen_elastic" "acumen_list_elastic_alerts".


End Siblings.

Section Outcome.

Variable find_module : string → option load_outcome.

(** Importing sibling [modname] yields a module that has [name]. *)
Definition supplies (st : state) (modname name : string) : Prop :=
  ∃ ns, provides find_module st (sibling modname) ns ∧
        is_Some (dict_get name ns).

End Outcome.

(** ** Sample environments *)

(** The dictionary of the package when its body starts to run. *)
Definition initial_globals : namespace :=
  [ ("__name__", VStr package);
    ("__doc__", VNone);
    ("__package__", VStr package);
    ("__path__", VList [VStr "tracecat/actions/integrations/siem"]);
    ("__file__", VStr "tracecat/actions/integrations/siem/__init__.py") ].

(** The parent packages are loaded by then, the siblings are not. *)
Definition initial_state : state :=
  {| globals := initial_globals;
     sys_modules :=
       {[ "tracecat" := [("__name__", VStr "tracecat")];
          "tracecat.actions" := [("__name__", VStr "tracecat.actions")];
          "tracecat.actions.integrations" :=
            [("__name__", VStr "tracecat.actions.integrations")] ]} |}.

(** Three sibling modules, each defining its function; [acumen_elastic]
    also holds the function it imports from [elastic]. *)
Definition sample_datadog : namespace :=
  [ ("__name__", VStr "tracecat.actions.integrations.siem.datadog");
    ("list_datadog_alerts", VFunction 1) ].

Definition sample_elastic : namespace :=
  [ ("__name__", VStr "tracecat.actions.integrations.siem.elastic");
    ("list_elastic_alerts", VFunction 2) ].

Definition sample_acumen_elastic : namespace :=
  [ ("__name__", VStr "tracecat.actions.integrations.siem.acumen_elastic");
    ("list_elastic_alerts", VFunction 2);
    ("acumen_list_elastic_alerts", VFunction 3) ].

(** An import path on which the three siblings are found. *)
Definition sample_path (fullname : string) : option load_outcome :=
  if String.eqb fullname "tracecat.actions.integrations.siem.datadog" then
    Some (Executed sample_datadog)
  else if String.eqb fullname "tracecat.actions.integrations.siem.elastic" then
    Some (Executed sample_elastic)
  else if String.eqb fullname "tracecat.actions.integrations.siem.acumen_elastic" then
    Some (Executed sample_acumen_elastic)
  else None.

(** An import path on which [elastic] is missing. *)
Definition path_without_elastic (fullname : string) : option load_outcome :=
  if String.eqb fullname "tracecat.actions.integrations.siem.elastic" then None
  else sample_path fullname.

(** The package as [sample_path] builds it from [initial_state]. *)
Definition sample_package : state :=
  init_result sample_datadog sample_elastic sample_acumen_elastic
    (VFunction 1) (VFunction 2) (VFunction 3) initial_state.

(** A namespace that star-imports the package, with a name of its own. *)
Definition sample_importer : namespace :=
  [ ("__name__", VStr "__main__"); ("datadog", VInstance 7) ].

(** An import path on which [elastic] is missing and the top-level code of
    [acumen_elastic] raises. *)
Definition path_with_two_faults (fullname : string) : option load_outcome :=
  if String.eqb fullname "tracecat.actions.integrations.siem.elastic" then None
  else if String.eqb fullname "tracecat.actions.integrations.siem.acumen_elastic"
  then Some (Failed "KeyError")
  else sample_path fullname.

(** A package namespace that already binds an exported name. *)
Definition rebound_globals : namespace :=
  ("list_elastic_alerts", VInstance 9) :: initial_globals.

(** A state in which the siblings are loaded and the package is to be
    initialized anew. *)
Definition reload_state : state :=
  {| globals := rebound_globals; sys_modules := sys_modules sample_package |}.

(** The package initialized anew from [reload_state]. *)
Definition reloaded_package : state :=
  {| globals :=
       dict_set "__all__" __all__
         (dict_set "acumen_list_elastic_alerts" (VFunction 3)
            (dict_set "list_elastic_alerts" (VFunction 2)
               (dict_set "list_datadog_alerts" (VFunction 1) rebound_globals)));
     sys_modules := sys_modules sample_package |}.

End Siem.

(** * Properties of the import system *)

Module PyFacts.
Import Py.

(** ** Facts about dictionaries *)

Lemma dict_get_set_eq (k : string) (v : value) (d : namespace) :
  dict_get k (dict_set k v d) = Some v.
Proof.
  induction d as [|[k' v'] d IH]; simpl.
  - by rewrite String.eqb_refl.
  - destruct (String.eqb k' k) eqn:E; simpl.
    + by rewrite String.eqb_refl.
    + by rewrite E.
Qed.

Lemma dict_get_set_ne (k k' : string) (v : value) (d : namespace) :
  k ≠ k' → dict_get k' (dict_set k v d) = dict_get k' d.
Proof.
  intros Hne. induction d as [|[k0 v0] d IH]; simpl.
  - apply String.eqb_neq in Hne. by rewrite Hne.
  - destruct (String.eqb k0 k) eqn:E; simpl.
    + apply String.eqb_eq in E. subst k0.
      apply String.eqb_neq in Hne. by rewrite Hne.
    + by rewrite IH.
Qed.

Lemma dict_get_None_keys (k : string) (d : namespace) :
  dict_get k d = None ↔ k ∉ dict_keys d.
Proof.
  induction d as [|[k' v'] d IH]; simpl.
  - split; [intros _; apply not_elem_of_nil | done].
  - rewrite not_elem_of_cons. destruct (String.eqb k' k) eqn:E.
    + apply String.eqb_eq in E. subst k'. split; [done | by intros [? _]].
    + apply String.eqb_neq in E. rewrite IH. split; [by intros ? | by intros [_ ?]].
Qed.

Lemma dict_keys_set (k : string) (v : value) (d : namespace) :
  dict_keys (dict_set k v d) =
    match dict_get k d with
    | Some _ => dict_keys d
    | None => dict_keys d ++ [k]
    end.
Proof.
  induction d as [|[k' v'] d IH]; simpl; [done |].
  destruct (String.eqb k' k) eqn:E; simpl.
  - apply String.eqb_eq in E. by subst k'.
  - rewrite IH. by destruct (dict_get k d).
Qed.

(** ** Facts about the import system *)

Section ImportFacts.

Variable find_module : string → option load_outcome.

Lemma import_from_Ok (package modname name : string) (st : state) (r : () * state) :
  import_from find_module package modname name st = Ok r ↔
  ∃ ns v, provides find_module st (resolve_name package modname) ns ∧
          dict_get name ns = Some v ∧
          r = ((), after_import package modname name ns v st).
Proof.
  unfold import_from, mbind, M_bind, import_module, store_name, raise,
    provides, after_import.
  destruct st as [g mods]; simpl.
  destruct (mods !! resolve_name package modname) as [ns|] eqn:Hm.
  - split.
    + destruct (dict_get name ns) as [v|] eqn:Hv; [|done].
      intros [= <-]. exists ns, v. split_and!; [by left | done |].
      by rewrite insert_id.
    + intros (ns' & v & [[= <-]|[? _]] & Hv & ->); [|done].
      rewrite Hv. by rewrite insert_id.
  - destruct (find_module (resolve_name package modname)) as [[ns|what]|] eqn:Hf.
    + split.
      * destruct (dict_get name ns) as [v|] eqn:Hv; [|done].
        intros [= <-]. exists ns, v. split_and!; [by right | done | done].
      * intros (ns' & v & [?|[_ [= <-]]] & Hv & ->); [done|].
        by rewrite Hv.
    + split; [done|]. intros (ns' & v & [?|[_ ?]] & _); done.
    + split; [done|]. intros (ns' & v & [?|[_ ?]] & _); done.
Qed.

Lemma import_from_Raise (package modname name : string) (st : state) (e : exn) :
  import_from find_module package modname name st = Raise e ↔
  import_failure find_module st (resolve_name package modname) name e.
Proof.
  unfold import_from, mbind, M_bind, import_module, store_name, raise,
    import_failure, provides.
  destruct (sys_modules st !! resolve_name package modname) as [ns|] eqn:Hm.
  - destruct (dict_get name ns) as [v|] eqn:Hv; split; try done.
    + intros [(_ & ? & _)|[(? & _ & ? & _)|(_ & ns' & [[= <-]|[? _]] & ?)]];
        congruence.
    + intros [= <-]. right; right. split; [done|]. exists ns. by split; [left|].
    + intros [(_ & ? & _)|[(? & _ & ? & _)|(-> & _)]]; done.
  - destruct (find_module (resolve_name package modname)) as [[ns|what]|] eqn:Hf.
    + destruct (dict_get name ns) as [v|] eqn:Hv; split; try done.
      * intros [(_ & _ & ?)|[(? & _ & _ & ?)|(_ & ns' & [?|[_ [= <-]]] & ?)]];
          congruence.
      * intros [= <-]. right; right. split; [done|]. exists ns. by split; [right|].
      * intros [(_ & _ & ?)|[(? & _ & _ & ?)|(-> & _)]]; done.
    + split.
      * intros [= <-]. right; left. by exists what.
      * intros [(_ & _ & ?)|[(? & -> & _ & [= <-])|(_ & ns' & [?|[_ ?]] & _)]];
          done.
    + split.
      * intros [= <-]. by left.
      * intros [(-> & _)|[(? & _ & _ & ?)|(_ & ns' & [?|[_ ?]] & _)]]; done.
Qed.

(** Loading a module does not change what any module provides. *)
Lemma provides_after_import (package modname name : string)
    (ns : namespace) (v : value) (st : state) (fullname : string) (ns' : namespace) :
  provides find_module st (resolve_name package modname) ns →
  provides find_module st fullname ns' →
  provides find_module (after_import package modname name ns v st) fullname ns'.
Proof.
  unfold provides, after_import; simpl. intros Hp Hq.
  destruct (decide (resolve_name package modname = fullname)) as [<-|Hne].
  - left. rewrite lookup_insert_eq. f_equal.
    destruct Hp as [Hp|[Hp1 Hp2]], Hq as [Hq|[Hq1 Hq2]]; congruence.
  - by rewrite lookup_insert_ne.
Qed.

Lemma provides_before_import (package modname name : string)
    (ns : namespace) (v : value) (st : state) (fullname : string) (ns' : namespace) :
  fullname ≠ resolve_name package modname →
  provides find_module (after_import package modname name ns v st) fullname ns' →
  provides find_module st fullname ns'.
Proof.
  unfold provides, after_import; simpl. intros Hne.
  by rewrite lookup_insert_ne.
Qed.

Lemma import_failure_before_import (package modname name : string)
    (ns : namespace) (v : value) (st : state) (fullname name' : string) (e : exn) :
  fullname ≠ resolve_name package modname →
  import_failure find_module (after_import package modname name ns v st)
    fullname name' e →
  import_failure find_module st fullname name' e.
Proof.
  intros Hne. unfold import_failure.
  intros [(-> & Hm & Hf)|[(what & -> & Hm & Hf)|(-> & ns' & Hp & Hg)]].
  - left. simpl in Hm. by rewrite lookup_insert_ne in Hm.
  - right; left. exists what. simpl in Hm. by rewrite lookup_insert_ne in Hm.
  - right; right. split; [done|]. exists ns'. split; [|done].
    by eapply provides_before_import.
Qed.

End ImportFacts.

(** Sequencing: a run of [m ≫= k] ends normally when both parts do. *)
Lemma bind_Ok {A B : Type} (m : M A) (k : A → M B) (st : state) (r : B * state) :
  (m ≫= k) st = Ok r ↔ ∃ a s, m st = Ok (a, s) ∧ k a s = Ok r.
Proof.
  unfold mbind, M_bind. destruct (m st) as [[a s]|e].
  - split; [by exists a, s | by intros (? & ? & [= <- <-] & ?)].
  - split; [done | by intros (? & ? & ? & _)].
Qed.

Lemma bind_Raise {A B : Type} (m : M A) (k : A → M B) (st : state) (e : exn) :
  (m ≫= k) st = Raise e ↔
  m st = Raise e ∨ ∃ a s, m st = Ok (a, s) ∧ k a s = Raise e.
Proof.
  unfold mbind, M_bind. destruct (m st) as [[a s]|e'].
  - split; [intros ?; right; by exists a, s |].
    by intros [?|(? & ? & [= <- <-] & ?)].
  - split; [intros [= ->]; by left | by intros [[= ->]|(? & ? & ? & _)]].
Qed.

Lemma exec_Ok (m : M ()) (st st' : state) :
  exec m st = Ok st' ↔ m st = Ok ((), st').
Proof.
  unfold exec. destruct (m st) as [[[] s]|e]; split; congruence.
Qed.

Lemma exec_Raise (m : M ()) (st : state) (e : exn) :
  exec m st = Raise e ↔ m st = Raise e.
Proof.
  unfold exec. destruct (m st) as [[[] s]|e']; split; congruence.
Qed.

(** Binding order: a name outside [names] does not show, a new name of
    [names] comes last. *)
Lemma binding_order_set_other (names : list string) (k : string) (v : value)
    (d : namespace) :
  k ∉ names → binding_order names (dict_set k v d) = binding_order names d.
Proof.
  intros Hk. unfold binding_order. rewrite dict_keys_set.
  destruct (dict_get k d); [done|].
  by rewrite filter_app, filter_cons_False, filter_nil, app_nil_r.
Qed.

Lemma binding_order_set_new (names : list string) (k : string) (v : value)
    (d : namespace) :
  k ∈ names → dict_get k d = None →
  binding_order names (dict_set k v d) = binding_order names d ++ [k].
Proof.
  intros Hk Hd. unfold binding_order. rewrite dict_keys_set, Hd.
  by rewrite filter_app, filter_cons_True, filter_nil.
Qed.

Lemma binding_order_unbound (names : list string) (d : namespace) :
  (∀ n, n ∈ names → dict_get n d = None) → binding_order names d = [].
Proof.
  unfold binding_order. intros H.
  induction d as [|[k v] d IH]; [done|]. simpl.
  assert (k ∉ names) as Hk.
  { intros Hin. specialize (H k Hin). simpl in H. by rewrite String.eqb_refl in H. }
  rewrite filter_cons_False by done. apply IH.
  intros n Hn. specialize (H n Hn). simpl in H.
  by destruct (String.eqb k n).
Qed.

Lemma import_failure_origin (find_module : string → option load_outcome)
    (st : state) (fullname name : string) (e : exn) :
  import_failure find_module st fullname name e → origin e = Some fullname.
Proof. by intros [(-> & _)|[(what & -> & _)|(-> & _)]]. Qed.

(** A star-import binds the listed names one after the other. *)
Lemma import_all_from_cons (module : namespace) (n : string) (v : value)
    (rest : list value) (target : namespace) :
  dict_get n module = Some v →
  import_all_from module (VStr n :: rest) target =
  import_all_from module rest (dict_set n v target).
Proof. intros H. simpl. by rewrite H. Qed.

End PyFacts.

(** * Properties of the package *)

Module SiemFacts.
Import Py Siem PyFacts.

#[local] Arguments resolve_name : simpl never.

(** The three siblings have different names. *)
Ltac sibling_ne :=
  let H := fresh in intros H; vm_compute in H; discriminate H.

Lemma sibling_inj (m m' : string) : sibling m = sibling m' → m = m'.
Proof.
  unfold sibling, resolve_name. intros H.
  by apply (inj (String.append _)), (inj (String.append _)) in H.
Qed.

Section Init.

Variable find_module : string → option load_outcome.

(** The body ends normally exactly when each import finds its module and
    the name it asks for, and then ends in [init_result]. *)
Lemma init_Ok (st st' : state) :
  exec (__init__ find_module) st = Ok st' ↔
  ∃ ns1 ns2 ns3 v1 v2 v3,
    provides find_module st (sibling "datadog") ns1 ∧
    dict_get "list_datadog_alerts" ns1 = Some v1 ∧
    provides find_module st (sibling "elastic") ns2 ∧
    dict_get "list_elastic_alerts" ns2 = Some v2 ∧
    provides find_module st (sibling "acumen_elastic") ns3 ∧
    dict_get "acumen_list_elastic_alerts" ns3 = Some v3 ∧
    st' = init_result ns1 ns2 ns3 v1 v2 v3 st.
Proof.
  rewrite exec_Ok. unfold __init__. split.
  - intros H.
    apply bind_Ok in H as ([] & s1 & H1 & H).
    apply bind_Ok in H as ([] & s2 & H2 & H).
    apply bind_Ok in H as ([] & s3 & H3 & H).
    apply import_from_Ok in H1 as (ns1 & v1 & P1 & G1 & [= ->]).
    apply import_from_Ok in H2 as (ns2 & v2 & P2 & G2 & [= ->]).
    apply import_from_Ok in H3 as (ns3 & v3 & P3 & G3 & [= ->]).
    exists ns1, ns2, ns3, v1, v2, v3.
    apply provides_before_import in P3; [|sibling_ne].
    apply provides_before_import in P3; [|sibling_ne].
    apply provides_before_import in P2; [|sibling_ne].
    split_and!; try done.
    unfold store_name in H. by injection H as <-.
  - intros (ns1 & ns2 & ns3 & v1 & v2 & v3 & P1 & G1 & P2 & G2 & P3 & G3 & ->).
    apply bind_Ok. eexists (), _. split.
    { apply import_from_Ok. by exists ns1, v1. }
    apply bind_Ok. eexists (), _. split.
    { apply import_from_Ok. exists ns2, v2. split_and!; try done.
      by apply provides_after_import. }
    apply bind_Ok. eexists (), _. split.
    { apply import_from_Ok. exists ns3, v3. split_and!; try done.
      by repeat apply provides_after_import. }
    done.
Qed.

(** The body fails only where one of its three imports does. *)
Lemma init_Raise (st : state) (e : exn) :
  exec (__init__ find_module) st = Raise e →
  import_failure find_module st (sibling "datadog") "list_datadog_alerts" e ∨
  import_failure find_module st (sibling "elastic") "list_elastic_alerts" e ∨
  import_failure find_module st (sibling "acumen_elastic")
    "acumen_list_elastic_alerts" e.
Proof.
  rewrite exec_Raise. unfold __init__. intros H.
  apply bind_Raise in H as [H|([] & s1 & H1 & H)].
  { left. by apply import_from_Raise in H. }
  apply import_from_Ok in H1 as (ns1 & v1 & _ & _ & [= ->]).
  apply bind_Raise in H as [H|([] & s2 & H2 & H)].
  { right; left. apply import_from_Raise in H.
    eapply import_failure_before_import; [|done]. sibling_ne. }
  apply import_from_Ok in H2 as (ns2 & v2 & _ & _ & [= ->]).
  apply bind_Raise in H as [H|([] & s3 & H3 & H)]; [|done].
  right; right. apply import_from_Raise in H.
  eapply import_failure_before_import; [|eapply import_failure_before_import; [|done]];
    sibling_ne.
Qed.

End Init.

(** ** The final state *)

Ltac dict_simpl :=
  repeat (rewrite dict_get_set_eq || rewrite dict_get_set_ne by congruence).

Ltac is_public :=
  unfold public_names;
  repeat first [apply list_elem_of_here | apply list_elem_of_further].

Ltac is_submodule :=
  unfold submodule_names;
  repeat first [apply list_elem_of_here | apply list_elem_of_further].

Ltac not_public :=
  unfold public_names; rewrite !not_elem_of_cons;
  split_and!; first [discriminate | apply not_elem_of_nil].

Ltac open_result :=
  unfold init_result, after_import; cbn [globals sys_modules];
  rewrite ?lookup_insert_ne by sibling_ne.

Section Result.

Variables (ns1 ns2 ns3 : namespace) (v1 v2 v3 : value) (st : state).

Abbreviation st' := (init_result ns1 ns2 ns3 v1 v2 v3 st).

Lemma result_get_all : dict_get "__all__" (globals st') = Some __all__.
Proof. open_result. by dict_simpl. Qed.

Lemma result_get_datadog :
  dict_get "list_datadog_alerts" (globals st') = Some v1.
Proof. open_result. repeat case_match; by dict_simpl. Qed.

Lemma result_get_elastic :
  dict_get "list_elastic_alerts" (globals st') = Some v2.
Proof. open_result. repeat case_match; by dict_simpl. Qed.

Lemma result_get_acumen :
  dict_get "acumen_list_elastic_alerts" (globals st') = Some v3.
Proof. open_result. repeat case_match; by dict_simpl. Qed.


Lemma result_frame (k : string) :
  k ∉ "__all__" :: public_names ++ submodule_names →
  dict_get k (globals st') = dict_get k (globals st).
Proof.
  unfold public_names, submodule_names; simpl.
  rewrite !not_elem_of_cons. intros (? & ? & ? & ? & ? & ? & ? & _).
  open_result. repeat case_match; by dict_simpl.
Qed.

Lemma result_modules :
  sys_modules st' =
    <[sibling "acumen_elastic" := ns3]>
      (<[sibling "elastic" := ns2]>
         (<[sibling "datadog" := ns1]> (sys_modules st))).
Proof. done. Qed.

Lemma result_modules_frame (fullname : string) :
  fullname ∉ sibling <$> submodule_names →
  sys_modules st' !! fullname = sys_modules st !! fullname.
Proof.
  unfold submodule_names; simpl. rewrite !not_elem_of_cons.
  intros (? & ? & ? & _). unfold init_result, after_import; simpl.
  by rewrite !lookup_insert_ne.
Qed.

Lemma result_modules_datadog :
  sys_modules st' !! sibling "datadog" = Some ns1.
Proof.
  unfold init_result, after_import, sibling; simpl.
  rewrite !lookup_insert_ne by sibling_ne. apply lookup_insert_eq.
Qed.

Lemma result_modules_elastic :
  sys_modules st' !! sibling "elastic" = Some ns2.
Proof.
  unfold init_result, after_import, sibling; simpl.
  rewrite !lookup_insert_ne by sibling_ne. apply lookup_insert_eq.
Qed.

Lemma result_modules_acumen :
  sys_modules st' !! sibling "acumen_elastic" = Some ns3.
Proof.
  unfold init_result, after_import, sibling; simpl. apply lookup_insert_eq.
Qed.

(** Modules loaded before the import are left as they are. *)
Lemma result_modules_loaded (find_module : string → option load_outcome)
    (fullname : string) (ns : namespace) :
  provides find_module st (sibling "datadog") ns1 →
  provides find_module st (sibling "elastic") ns2 →
  provides find_module st (sibling "acumen_elastic") ns3 →
  sys_modules st !! fullname = Some ns →
  sys_modules st' !! fullname = Some ns.
Proof.
  intros P1 P2 P3 H. rewrite result_modules.
  rewrite !lookup_insert.
  repeat case_decide; try done;
    match goal with E : _ = fullname |- _ => rewrite <- E in H end.
  - destruct P3 as [?|[? _]]; congruence.
  - destruct P2 as [?|[? _]]; congruence.
  - destruct P1 as [?|[? _]]; congruence.
Qed.

Lemma result_exported_names :
  exported_names (globals st') = Some public_names.
Proof. unfold exported_names. by rewrite result_get_all. Qed.

(** A star-import of the package binds the three names, in the order of
    the list. *)
Lemma result_import_star (target : namespace) :
  import_star (globals st') target =
    Ok (dict_set "acumen_list_elastic_alerts" v3
          (dict_set "list_elastic_alerts" v2
             (dict_set "list_datadog_alerts" v1 target))).
Proof.
  unfold import_star. rewrite result_get_all. unfold __all__.
  rewrite (import_all_from_cons _ _ v1) by apply result_get_datadog.
  rewrite (import_all_from_cons _ _ v2) by apply result_get_elastic.
  by rewrite (import_all_from_cons _ _ v3) by apply result_get_acumen.
Qed.

(** In a namespace where the three names are new, they get bound in the
    order of the import statements. *)
Lemma result_binding_order :
  (∀ n, n ∈ public_names → dict_get n (globals st) = None) →
  binding_order public_names (globals st') = public_names.
Proof.
  intros Hnew.
  assert (dict_get "list_datadog_alerts" (globals st) = None) as H1
    by (apply Hnew; is_public).
  assert (dict_get "list_elastic_alerts" (globals st) = None) as H2
    by (apply Hnew; is_public).
  assert (dict_get "acumen_list_elastic_alerts" (globals st) = None) as H3
    by (apply Hnew; is_public).
  pose proof (binding_order_unbound _ _ Hnew) as H0.
  open_result.
  rewrite binding_order_set_other by not_public.
  repeat case_match;
    repeat first
      [ rewrite binding_order_set_other by not_public
      | rewrite binding_order_set_new by (first [solve [is_public] | by dict_simpl]) ];
    by rewrite H0.
Qed.

End Result.

End SiemFacts.

(** * The specification, claim by claim *)

Module SiemSpec.
Import Py Siem PyFacts SiemFacts.

Ltac run_init H :=
  apply init_Ok in H
    as (ns1 & ns2 & ns3 & v1 & v2 & v3 & P1 & G1 & P2 & G2 & P3 & G3 & ->).

Ltac run_sample := apply exec_Ok; vm_compute; reflexivity.

(** C1.  Once the package is imported, the names of its export list
    [__all__] form exactly the set {list_datadog_alerts,
    list_elastic_alerts, acumen_list_elastic_alerts}: each of the three is
    in the list and every name of the list is one of the three.  The list
    the package holds is the one written in the source. *)
Theorem export_list_is_public_set
    (find_module : string → option load_outcome) (st st' : state) :
  exec (__init__ find_module) st = Ok st' →
  ∃ names : list string,
    exported_names (globals st') = Some names ∧
    dict_get "__all__" (globals st') = Some __all__ ∧
    __all__ = VList (VStr <$> names) ∧
    list_to_set names =@{gset string}
      {[ "list_datadog_alerts"; "list_elastic_alerts";
         "acumen_list_elastic_alerts" ]} ∧
    ∀ n, n ∈ names ↔
         n = "list_datadog_alerts" ∨ n = "list_elastic_alerts" ∨
         n = "acumen_list_elastic_alerts".
Proof.
  intros H. run_init H. exists public_names. split_and!.
  - apply result_exported_names.
  - apply result_get_all.
  - done.
  - unfold public_names. simpl. apply set_eq. intros x.
    rewrite !elem_of_union, !elem_of_singleton, elem_of_empty. tauto.
  - intros n. unfold public_names.
    rewrite !elem_of_cons, elem_of_nil. tauto.
Qed.

Lemma export_list_is_public_set_witness :
  exec (__init__ sample_path) initial_state = Ok sample_package ∧
  ∃ names : list string,
    exported_names (globals sample_package) = Some names ∧
    dict_get "__all__" (globals sample_package) = Some __all__ ∧
    __all__ = VList (VStr <$> names) ∧
    list_to_set names =@{gset string}
      {[ "list_datadog_alerts"; "list_elastic_alerts";
         "acumen_list_elastic_alerts" ]} ∧
    ∀ n, n ∈ names ↔
         n = "list_datadog_alerts" ∨ n = "list_elastic_alerts" ∨
         n = "acumen_list_elastic_alerts".
Proof.
  split; [run_sample |].
  apply (export_list_is_public_set sample_path initial_state). run_sample.
Defined.

(** C2.  The package re-exports three objects of its sibling modules, each
    under the name it has there: after the import, list_datadog_alerts is
    the object that module datadog holds under that name,
    list_elastic_alerts the one of module elastic and
    acumen_list_elastic_alerts the one of module acumen_elastic.  The
    object bound in the package is the very object of the sibling (nothing
    wraps it) and the name is unchanged. *)
Theorem reexports_sibling_objects
    (find_module : string → option load_outcome) (st st' : state) :
  exec (__init__ find_module) st = Ok st' →
  ∃ (datadog elastic acumen_elastic : namespace) (v1 v2 v3 : value),
    sys_modules st' !! sibling "datadog" = Some datadog ∧
    dict_get "list_datadog_alerts" datadog = Some v1 ∧
    dict_get "list_datadog_alerts" (globals st') = Some v1 ∧
    sys_modules st' !! sibling "elastic" = Some elastic ∧
    dict_get "list_elastic_alerts" elastic = Some v2 ∧
    dict_get "list_elastic_alerts" (globals st') = Some v2 ∧
    sys_modules st' !! sibling "acumen_elastic" = Some acumen_elastic ∧
    dict_get "acumen_list_elastic_alerts" acumen_elastic = Some v3 ∧
    dict_get "acumen_list_elastic_alerts" (globals st') = Some v3.
Proof.
  intros H. run_init H. exists ns1, ns2, ns3, v1, v2, v3.
  split_and!; try done.
  - apply result_modules_datadog.
  - apply result_get_datadog.
  - apply result_modules_elastic.
  - apply result_get_elastic.
  - apply result_modules_acumen.
  - apply result_get_acumen.
Qed.

Lemma reexports_sibling_objects_witness :
  exec (__init__ sample_path) initial_state = Ok sample_package ∧
  ∃ (datadog elastic acumen_elastic : namespace) (v1 v2 v3 : value),
    sys_modules sample_package !! sibling "datadog" = Some datadog ∧
    dict_get "list_datadog_alerts" datadog = Some v1 ∧
    dict_get "list_datadog_alerts" (globals sample_package) = Some v1 ∧
    sys_modules sample_package !! sibling "elastic" = Some elastic ∧
    dict_get "list_elastic_alerts" elastic = Some v2 ∧
    dict_get "list_elastic_alerts" (globals sample_package) = Some v2 ∧
    sys_modules sample_package !! sibling "acumen_elastic" = Some acumen_elastic ∧
    dict_get "acumen_list_elastic_alerts" acumen_elastic = Some v3 ∧
    dict_get "acumen_list_elastic_alerts" (globals sample_package) = Some v3.
Proof.
  split; [run_sample |].
  apply (reexports_sibling_objects sample_path initial_state). run_sample.
Defined.

(** C3.  No other name is exposed through the public interface: a name
    that is not one of the three is absent from the export list, and a
    star-import of the package leaves the binding of such a name in the
    importing namespace as it was. *)
Theorem star_import_binds_public_names_only
    (find_module : string → option load_outcome) (st st' : state)
    (target : namespace) (n : string) :
  exec (__init__ find_module) st = Ok st' →
  n ∉ [ "list_datadog_alerts"; "list_elastic_alerts";
        "acumen_list_elastic_alerts" ] →
  (∃ items : list value,
     dict_get "__all__" (globals st') = Some (VList items) ∧
     __all__ = VList items ∧ VStr n ∉ items) ∧
  ∃ target' : namespace,
    import_star (globals st') target = Ok target' ∧
    dict_get n target' = dict_get n target.
Proof.
  intros H Hn. run_init H.
  rewrite !not_elem_of_cons in Hn. destruct Hn as (? & ? & ? & _).
  split.
  - eexists. split_and!; [apply result_get_all | done |].
    rewrite !not_elem_of_cons. split_and!; try congruence.
    apply not_elem_of_nil.
  - eexists. split; [apply result_import_star |]. by dict_simpl.
Qed.

Lemma star_import_binds_public_names_only_witness :
  exec (__init__ sample_path) initial_state = Ok sample_package ∧
  ("datadog" ∉ [ "list_datadog_alerts"; "list_elastic_alerts";
                 "acumen_list_elastic_alerts" ]) ∧
  (∃ items : list value,
     dict_get "__all__" (globals sample_package) = Some (VList items) ∧
     __all__ = VList items ∧ VStr "datadog" ∉ items) ∧
  ∃ target' : namespace,
    import_star (globals sample_package) sample_importer = Ok target' ∧
    dict_get "datadog" target' = dict_get "datadog" sample_importer.
Proof.
  assert ("datadog" ∉ [ "list_datadog_alerts"; "list_elastic_alerts";
                        "acumen_list_elastic_alerts" ]) as Hn.
  { rewrite !not_elem_of_cons. split_and!; try discriminate.
    apply not_elem_of_nil. }
  split; [run_sample |]. split; [exact Hn |].
  apply (star_import_binds_public_names_only sample_path initial_state);
    [run_sample | exact Hn].
Defined.

(** C4.  With the sibling modules as the spec describes them, importing
    the package succeeds (no import error, no missing symbol) and each of
    the three exported names resolves to a callable object, which is not
    None. *)
Theorem import_succeeds_with_callables
    (find_module : string → option load_outcome) (st : state) :
  siblings_as_specified find_module st →
  ∃ st' : state,
    exec (__init__ find_module) st = Ok st' ∧
    ∀ n, n ∈ [ "list_datadog_alerts"; "list_elastic_alerts";
               "acumen_list_elastic_alerts" ] →
      ∃ v, dict_get n (globals st') = Some v ∧ callable v = true ∧ v ≠ VNone.
Proof.
  intros ((ns1 & v1 & P1 & G1 & C1) & (ns2 & v2 & P2 & G2 & C2) &
          (ns3 & v3 & P3 & G3 & C3)).
  exists (init_result ns1 ns2 ns3 v1 v2 v3 st). split.
  - apply init_Ok. by exists ns1, ns2, ns3, v1, v2, v3.
  - intros n. rewrite !elem_of_cons, elem_of_nil.
    intros [->|[->|[->|[]]]].
    + exists v1. split_and!; [apply result_get_datadog | done |].
      by intros ->.
    + exists v2. split_and!; [apply result_get_elastic | done |].
      by intros ->.
    + exists v3. split_and!; [apply result_get_acumen | done |].
      by intros ->.
Qed.

Lemma sample_siblings_as_specified :
  siblings_as_specified sample_path initial_state.
Proof.
  split_and!.
  - exists sample_datadog, (VFunction 1).
    split_and!; [right; split; vm_compute; reflexivity | done | done].
  - exists sample_elastic, (VFunction 2).
    split_and!; [right; split; vm_compute; reflexivity | done | done].
  - exists sample_acumen_elastic, (VFunction 3).
    split_and!; [right; split; vm_compute; reflexivity | done | done].
Defined.

Lemma import_succeeds_with_callables_witness :
  siblings_as_specified sample_path initial_state ∧
  ∃ st' : state,
    exec (__init__ sample_path) initial_state = Ok st' ∧
    ∀ n, n ∈ [ "list_datadog_alerts"; "list_elastic_alerts";
               "acumen_list_elastic_alerts" ] →
      ∃ v, dict_get n (globals st') = Some v ∧ callable v = true ∧ v ≠ VNone.
Proof.
  split; [exact sample_siblings_as_specified |].
  apply (import_succeeds_with_callables sample_path initial_state).
  exact sample_siblings_as_specified.
Defined.


Example sample_package_registers_datadog :
  sys_modules sample_package !! "tracecat.actions.integrations.siem.datadog" =
    Some sample_datadog ∧
  sys_modules initial_state !! "tracecat.actions.integrations.siem.datadog" = None.
Proof. split; vm_compute; reflexivity. Qed.




(** C6.  The initializer raises no error of its own.  Every error
    observed when the package is imported is about one of the three
    sibling modules: the module cannot be found, its own top-level code
    raised, or it does not define the name asked from it.  Such an error
    occurs only when some sibling does not supply its name, and the one
    statement that is not an import, the assignment of [__all__], cannot
    fail. *)
Theorem errors_come_from_siblings
    (find_module : string → option load_outcome) (st : state) (e : exn) :
  exec (__init__ find_module) st = Raise e →
  (∃ m n,
     (m, n) ∈ [ ("datadog", "list_datadog_alerts");
                ("elastic", "list_elastic_alerts");
                ("acumen_elastic", "acumen_list_elastic_alerts") ] ∧
     origin e = Some (sibling m) ∧
     import_failure find_module st (sibling m) n e) ∧
  ¬ (∃ ns1 ns2 ns3,
       provides find_module st (sibling "datadog") ns1 ∧
       is_Some (dict_get "list_datadog_alerts" ns1) ∧
       provides find_module st (sibling "elastic") ns2 ∧
       is_Some (dict_get "list_elastic_alerts" ns2) ∧
       provides find_module st (sibling "acumen_elastic") ns3 ∧
       is_Some (dict_get "acumen_list_elastic_alerts" ns3)) ∧
  ∀ s, ∃ s', store_name "__all__" __all__ s = Ok ((), s').
Proof.
  intros H. split_and!.
  - destruct (init_Raise _ _ _ H) as [F|[F|F]].
    + exists "datadog", "list_datadog_alerts". split_and!; [| |done].
      * apply list_elem_of_here.
      * by eapply import_failure_origin.
    + exists "elastic", "list_elastic_alerts". split_and!; [| |done].
      * apply list_elem_of_further, list_elem_of_here.
      * by eapply import_failure_origin.
    + exists "acumen_elastic", "acumen_list_elastic_alerts".
      split_and!; [| |done].
      * do 2 apply list_elem_of_further. apply list_elem_of_here.
      * by eapply import_failure_origin.
  - intros (ns1 & ns2 & ns3 & P1 & [v1 G1] & P2 & [v2 G2] & P3 & [v3 G3]).
    assert (exec (__init__ find_module) st =
            Ok (init_result ns1 ns2 ns3 v1 v2 v3 st)) as Hok.
    { apply init_Ok. by exists ns1, ns2, ns3, v1, v2, v3. }
    congruence.
  - intros s. by eexists.
Qed.

Lemma errors_come_from_siblings_witness :
  exec (__init__ path_without_elastic) initial_state =
    Raise (ModuleNotFoundError "tracecat.actions.integrations.siem.elastic") ∧
  (∃ m n,
     (m, n) ∈ [ ("datadog", "list_datadog_alerts");
                ("elastic", "list_elastic_alerts");
                ("acumen_elastic", "acumen_list_elastic_alerts") ] ∧
     origin (ModuleNotFoundError "tracecat.actions.integrations.siem.elastic") =
       Some (sibling m) ∧
     import_failure path_without_elastic initial_state (sibling m) n
       (ModuleNotFoundError "tracecat.actions.integrations.siem.elastic")) ∧
  ¬ (∃ ns1 ns2 ns3,
       provides path_without_elastic initial_state (sibling "datadog") ns1 ∧
       is_Some (dict_get "list_datadog_alerts" ns1) ∧
       provides path_without_elastic initial_state (sibling "elastic") ns2 ∧
       is_Some (dict_get "list_elastic_alerts" ns2) ∧
       provides path_without_elastic initial_state (sibling "acumen_elastic") ns3 ∧
       is_Some (dict_get "acumen_list_elastic_alerts" ns3)) ∧
  ∀ s, ∃ s', store_name "__all__" __all__ s = Ok ((), s').
Proof.
  split; [vm_compute; reflexivity |].
  apply (errors_come_from_siblings path_without_elastic initial_state).
  vm_compute; reflexivity.
Defined.

(** C7.  The export list [__all__] has exactly three entries, all of them
    strings, no two of them equal. *)
Theorem export_list_three_distinct_strings :
  ∃ items : list value,
    __all__ = VList items ∧
    length items = 3 ∧
    Forall (λ v, is_str v = true) items ∧
    NoDup items.
Proof.
  eexists. split_and!; [reflexivity | reflexivity | by repeat constructor |].
  rewrite !NoDup_cons, !not_elem_of_cons.
  split_and!; try discriminate; try apply not_elem_of_nil. apply NoDup_nil_2.
Qed.

(** C8.  The entries of [__all__] come in the order of the import
    statements: list_datadog_alerts, list_elastic_alerts,
    acumen_list_elastic_alerts.  In a package namespace where the three
    names are new, the order in which the body binds them is the order of
    the list. *)
Theorem export_list_follows_import_order
    (find_module : string → option load_outcome) (st st' : state) :
  (∀ n, n ∈ [ "list_datadog_alerts"; "list_elastic_alerts";
              "acumen_list_elastic_alerts" ] →
     dict_get n (globals st) = None) →
  exec (__init__ find_module) st = Ok st' →
  ∃ names : list string,
    exported_names (globals st') = Some names ∧
    names = [ "list_datadog_alerts"; "list_elastic_alerts";
              "acumen_list_elastic_alerts" ] ∧
    binding_order names (globals st') = names.
Proof.
  intros Hnew H. run_init H. exists public_names. split_and!.
  - apply result_exported_names.
  - done.
  - by apply result_binding_order.
Qed.

Lemma export_list_follows_import_order_witness :
  (∀ n, n ∈ [ "list_datadog_alerts"; "list_elastic_alerts";
              "acumen_list_elastic_alerts" ] →
     dict_get n (globals initial_state) = None) ∧
  exec (__init__ sample_path) initial_state = Ok sample_package ∧
  ∃ names : list string,
    exported_names (globals sample_package) = Some names ∧
    names = [ "list_datadog_alerts"; "list_elastic_alerts";
              "acumen_list_elastic_alerts" ] ∧
    binding_order names (globals sample_package) = names.
Proof.
  assert (∀ n, n ∈ [ "list_datadog_alerts"; "list_elastic_alerts";
                     "acumen_list_elastic_alerts" ] →
            dict_get n (globals initial_state) = None) as Hnew.
  { intros n. rewrite !elem_of_cons, elem_of_nil.
    intros [->|[->|[->|[]]]]; reflexivity. }
  split; [exact Hnew |]. split; [run_sample |].
  apply (export_list_follows_import_order sample_path initial_state);
    [exact Hnew | run_sample].
Defined.

(** C9.  Every name listed in [__all__] is bound in the package by one of
    the three import statements, to the object its sibling module holds
    under that name; no entry refers to an unbound name, so a star-import
    of the package finds every attribute it asks for and ends normally. *)
Theorem export_list_names_are_bound
    (find_module : string → option load_outcome) (st st' : state) :
  exec (__init__ find_module) st = Ok st' →
  ∃ names : list string,
    exported_names (globals st') = Some names ∧
    (∀ n, n ∈ names →
       ∃ m ns v, m ∈ submodule_names ∧
         sys_modules st' !! sibling m = Some ns ∧
         dict_get n ns = Some v ∧
         dict_get n (globals st') = Some v) ∧
    ∀ target : namespace,
      (∃ target', import_star (globals st') target = Ok target') ∧
      ∀ n, import_star (globals st') target ≠ Raise (AttributeError n).
Proof.
  intros H. run_init H. exists public_names. split_and!.
  - apply result_exported_names.
  - intros n. unfold public_names. rewrite !elem_of_cons, elem_of_nil.
    intros [->|[->|[->|[]]]].
    + exists "datadog", ns1, v1. split_and!; [is_submodule | | done |].
      * apply result_modules_datadog.
      * apply result_get_datadog.
    + exists "elastic", ns2, v2. split_and!; [is_submodule | | done |].
      * apply result_modules_elastic.
      * apply result_get_elastic.
    + exists "acumen_elastic", ns3, v3. split_and!; [is_submodule | | done |].
      * apply result_modules_acumen.
      * apply result_get_acumen.
  - intros target. rewrite result_import_star. split; [by eexists | done].
Qed.

Lemma export_list_names_are_bound_witness :
  exec (__init__ sample_path) initial_state = Ok sample_package ∧
  ∃ names : list string,
    exported_names (globals sample_package) = Some names ∧
    (∀ n, n ∈ names →
       ∃ m ns v, m ∈ submodule_names ∧
         sys_modules sample_package !! sibling m = Some ns ∧
         dict_get n ns = Some v ∧
         dict_get n (globals sample_package) = Some v) ∧
    ∀ target : namespace,
      (∃ target', import_star (globals sample_package) target = Ok target') ∧
      ∀ n, import_star (globals sample_package) target ≠ Raise (AttributeError n).
Proof.
  split; [run_sample |].
  apply (export_list_names_are_bound sample_path initial_state). run_sample.
Defined.

End SiemSpec.

(** * Further behaviour of the initializer *)

Module SiemBehaviour.
Import Py Siem PyFacts SiemFacts.

(** ** Dictionaries, continued *)


Lemma dict_keys_set_app (k : string) (v : value) (d : namespace) :
  dict_keys (dict_set k v d) =
    dict_keys d ++ match dict_get k d with Some _ => [] | None => [k] end.
Proof.
  rewrite dict_keys_set. destruct (dict_get k d); [by rewrite app_nil_r | done].
Qed.

(** ** Imports, continued *)


Lemma import_failure_after_import
    (find_module : string → option load_outcome)
    (package modname name : string) (ns : namespace) (v : value) (st : state)
    (fullname name' : string) (e : exn) :
  fullname ≠ resolve_name package modname →
  provides find_module st (resolve_name package modname) ns →
  import_failure find_module st fullname name' e →
  import_failure find_module (after_import package modname name ns v st)
    fullname name' e.
Proof.
  intros Hne Hp. unfold import_failure.
  intros [(-> & Hm & Hf)|[(what & -> & Hm & Hf)|(-> & ns' & Hq & Hg)]].
  - left. simpl. by rewrite lookup_insert_ne.
  - right; left. exists what. simpl. by rewrite lookup_insert_ne.
  - right; right. split; [done|]. exists ns'. split; [|done].
    by apply provides_after_import.
Qed.

Ltac run_init H :=
  apply init_Ok in H
    as (ns1 & ns2 & ns3 & v1 & v2 & v3 & P1 & G1 & P2 & G2 & P3 & G3 & ->).

Section Order.

Variable find_module : string → option load_outcome.

(** The imports run in the order of the source: the failure of the first
    import that fails is the exception of the body. *)
Lemma init_Raise_from (st : state) (e : exn) :
  import_failure find_module st (sibling "datadog") "list_datadog_alerts" e ∨
  (supplies find_module st "datadog" "list_datadog_alerts" ∧
   import_failure find_module st (sibling "elastic") "list_elastic_alerts" e) ∨
  (supplies find_module st "datadog" "list_datadog_alerts" ∧
   supplies find_module st "elastic" "list_elastic_alerts" ∧
   import_failure find_module st (sibling "acumen_elastic")
     "acumen_list_elastic_alerts" e) →
  exec (__init__ find_module) st = Raise e.
Proof.
  rewrite exec_Raise. unfold __init__.
  intros [F|[((ns1 & P1 & [v1 G1]) & F)|
            ((ns1 & P1 & [v1 G1]) & (ns2 & P2 & [v2 G2]) & F)]].
  - apply bind_Raise. left. by apply import_from_Raise.
  - apply bind_Raise. right. eexists (), _. split.
    { apply import_from_Ok. by exists ns1, v1. }
    apply bind_Raise. left. apply import_from_Raise.
    apply import_failure_after_import; [sibling_ne | done | done].
  - apply bind_Raise. right. eexists (), _. split.
    { apply import_from_Ok. by exists ns1, v1. }
    apply bind_Raise. right. eexists (), _. split.
    { apply import_from_Ok. exists ns2, v2. split_and!; try done.
      by apply provides_after_import. }
    apply bind_Raise. left. apply import_from_Raise.
    apply import_failure_after_import;
      [sibling_ne | by apply provides_after_import |].
    apply import_failure_after_import; [sibling_ne | done | done].
Qed.

End Order.

Ltac run_sample := apply exec_Ok; vm_compute; reflexivity.



(** X2.  The body stops at the first import that fails, in the order of
    the source: a failure of [datadog] is raised whatever the other two
    siblings are; a failure of [elastic] is raised when [datadog] supplies
    its name; a failure of [acumen_elastic] when both do. *)
Theorem first_failing_import_decides
    (find_module : string → option load_outcome) (st : state) (e : exn) :
  import_failure find_module st (sibling "datadog") "list_datadog_alerts" e ∨
  (supplies find_module st "datadog" "list_datadog_alerts" ∧
   import_failure find_module st (sibling "elastic") "list_elastic_alerts" e) ∨
  (supplies find_module st "datadog" "list_datadog_alerts" ∧
   supplies find_module st "elastic" "list_elastic_alerts" ∧
   import_failure find_module st (sibling "acumen_elastic")
     "acumen_list_elastic_alerts" e) →
  exec (__init__ find_module) st = Raise e.
Proof. apply init_Raise_from. Qed.

Lemma first_failing_import_decides_witness :
  (import_failure path_with_two_faults initial_state (sibling "datadog")
     "list_datadog_alerts"
     (ModuleNotFoundError "tracecat.actions.integrations.siem.elastic") ∨
   (supplies path_with_two_faults initial_state "datadog" "list_datadog_alerts" ∧
    import_failure path_with_two_faults initial_state (sibling "elastic")
      "list_elastic_alerts"
      (ModuleNotFoundError "tracecat.actions.integrations.siem.elastic")) ∨
   (supplies path_with_two_faults initial_state "datadog" "list_datadog_alerts" ∧
    supplies path_with_two_faults initial_state "elastic" "list_elastic_alerts" ∧
    import_failure path_with_two_faults initial_state (sibling "acumen_elastic")
      "acumen_list_elastic_alerts"
      (ModuleNotFoundError "tracecat.actions.integrations.siem.elastic"))) ∧
  exec (__init__ path_with_two_faults) initial_state =
    Raise (ModuleNotFoundError "tracecat.actions.integrations.siem.elastic").
Proof.
  assert (supplies path_with_two_faults initial_state "datadog"
            "list_datadog_alerts" ∧
          import_failure path_with_two_faults initial_state (sibling "elastic")
            "list_elastic_alerts"
            (ModuleNotFoundError "tracecat.actions.integrations.siem.elastic"))
    as H.
  { split.
    - exists sample_datadog. split; [right; split; vm_compute; reflexivity |].
      by eexists.
    - left. split_and!; vm_compute; reflexivity. }
  split; [right; left; exact H |].
  apply (first_failing_import_decides path_with_two_faults initial_state).
  right; left; exact H.
Defined.

(** ** The namespace only grows *)

Lemma grows_within_refl (allowed : list string) (d : namespace) :
  grows_within allowed d d.
Proof.
  exists []. split; [by rewrite app_nil_r |].
  intros k Hk. by apply elem_of_nil in Hk.
Qed.

Lemma grows_within_set (allowed : list string) (d d1 : namespace)
    (k : string) (v : value) :
  k ∈ allowed → grows_within allowed d d1 →
  grows_within allowed d (dict_set k v d1).
Proof.
  intros Hk (new & Hkeys & Hnew). unfold grows_within.
  rewrite dict_keys_set_app.
  destruct (dict_get k d1) eqn:E.
  - exists new. by rewrite app_nil_r.
  - exists (new ++ [k]). split; [by rewrite Hkeys, app_assoc |].
    intros k0. rewrite elem_of_app, list_elem_of_singleton.
    intros [Hin| ->]; [by apply Hnew |]. split; [done|].
    apply dict_get_None_keys. apply dict_get_None_keys in E.
    rewrite Hkeys in E. intros Hin. apply E. apply elem_of_app. by left.
Qed.

Ltac is_bound_name :=
  unfold public_names, submodule_names; simpl;
  repeat first [apply list_elem_of_here | apply list_elem_of_further].

(** X4.  When the three siblings are loaded already, the body keeps the
    keys of the package in their order and appends, in the order of the
    source, those of list_datadog_alerts, list_elastic_alerts,
    acumen_list_elastic_alerts and __all__ that were not bound yet: no
    name is unbound or moved, and a name bound before is rebound where it
    stands. *)
Theorem import_of_loaded_siblings_appends_in_order
    (find_module : string → option load_outcome) (st st' : state) :
  (∀ m, m ∈ submodule_names → is_Some (sys_modules st !! sibling m)) →
  exec (__init__ find_module) st = Ok st' →
  dict_keys (globals st') =
    dict_keys (globals st) ++
      unbound (globals st)
        [ "list_datadog_alerts"; "list_elastic_alerts";
          "acumen_list_elastic_alerts"; "__all__" ].
Proof.
  intros Hmods H. run_init H.
  destruct (Hmods "datadog") as [m1 M1]; [is_bound_name |].
  destruct (Hmods "elastic") as [m2 M2]; [is_bound_name |].
  destruct (Hmods "acumen_elastic") as [m3 M3]; [is_bound_name |].
  unfold sibling in M1, M2, M3.
  open_result. rewrite M1, M2, M3.
  rewrite !dict_keys_set_app. dict_simpl. simpl.
  destruct (dict_get "list_datadog_alerts" (globals st));
    destruct (dict_get "list_elastic_alerts" (globals st));
    destruct (dict_get "acumen_list_elastic_alerts" (globals st));
    destruct (dict_get "__all__" (globals st));
    by rewrite <- ?app_assoc, ?app_nil_r.
Qed.

Lemma import_of_loaded_siblings_appends_in_order_witness :
  (∀ m, m ∈ submodule_names →
     is_Some (sys_modules reload_state !! sibling m)) ∧
  exec (__init__ path_with_two_faults) reload_state = Ok reloaded_package ∧
  dict_keys (globals reloaded_package) =
    dict_keys (globals reload_state) ++
      unbound (globals reload_state)
        [ "list_datadog_alerts"; "list_elastic_alerts";
          "acumen_list_elastic_alerts"; "__all__" ].
Proof.
  assert (∀ m, m ∈ submodule_names →
            is_Some (sys_modules reload_state !! sibling m)) as Hmods.
  { intros m. unfold submodule_names. rewrite !elem_of_cons, elem_of_nil.
    intros [->|[->|[->|[]]]]; eexists; vm_compute; reflexivity. }
  split; [exact Hmods |]. split; [run_sample |].
  apply (import_of_loaded_siblings_appends_in_order
           path_with_two_faults reload_state); [exact Hmods | run_sample].
Defined.

(** X6.  A star-import of the package hands the importing namespace the
    objects of the sibling modules themselves: under each of the three
    names the importer holds what the sibling holds under that name, and
    the importer's namespace only grows by these names. *)
Theorem star_import_delivers_sibling_objects
    (find_module : string → option load_outcome) (st st' : state)
    (target : namespace) :
  exec (__init__ find_module) st = Ok st' →
  ∃ target' : namespace,
    import_star (globals st') target = Ok target' ∧
    grows_within public_names target target' ∧
    ∀ m n,
      (m, n) ∈ [ ("datadog", "list_datadog_alerts");
                 ("elastic", "list_elastic_alerts");
                 ("acumen_elastic", "acumen_list_elastic_alerts") ] →
      ∃ ns v,
        sys_modules st' !! sibling m = Some ns ∧
        dict_get n ns = Some v ∧
        dict_get n target' = Some v.
Proof.
  intros H. run_init H. eexists. split; [apply result_import_star |]. split.
  - repeat (apply grows_within_set; [solve [is_public] |]).
    apply grows_within_refl.
  - intros m n. rewrite !elem_of_cons, elem_of_nil.
    intros [[= -> ->]|[[= -> ->]|[[= -> ->]|[]]]].
    + exists ns1, v1. split_and!; [apply result_modules_datadog | done |].
      by dict_simpl.
    + exists ns2, v2. split_and!; [apply result_modules_elastic | done |].
      by dict_simpl.
    + exists ns3, v3. split_and!; [apply result_modules_acumen | done |].
      by dict_simpl.
Qed.

Lemma star_import_delivers_sibling_objects_witness :
  exec (__init__ sample_path) initial_state = Ok sample_package ∧
  ∃ target' : namespace,
    import_star (globals sample_package) sample_importer = Ok target' ∧
    grows_within public_names sample_importer target' ∧
    ∀ m n,
      (m, n) ∈ [ ("datadog", "list_datadog_alerts");
                 ("elastic", "list_elastic_alerts");
                 ("acumen_elastic", "acumen_list_elastic_alerts") ] →
      ∃ ns v,
        sys_modules sample_package !! sibling m = Some ns ∧
        dict_get n ns = Some v ∧
        dict_get n target' = Some v.
Proof.
  split; [run_sample |].
  apply (star_import_delivers_sibling_objects sample_path initial_state).
  run_sample.
Defined.

(** X8.  When the three siblings are loaded already, the body does not
    look at the import path and touches nothing but the three exported
    names and [__all__]: no submodule name is bound, every other name of
    the package keeps its binding, and the module table is unchanged. *)
Theorem import_of_loaded_siblings_binds_exports_only
    (find_module : string → option load_outcome) (st st' : state) :
  (∀ m, m ∈ submodule_names → is_Some (sys_modules st !! sibling m)) →
  exec (__init__ find_module) st = Ok st' →
  (∀ k, k ∉ "__all__" :: public_names →
     dict_get k (globals st') = dict_get k (globals st)) ∧
  sys_modules st' = sys_modules st.
Proof.
  intros Hmods H. run_init H.
  destruct (Hmods "datadog") as [m1 M1]; [is_bound_name |].
  destruct (Hmods "elastic") as [m2 M2]; [is_bound_name |].
  destruct (Hmods "acumen_elastic") as [m3 M3]; [is_bound_name |].
  assert (ns1 = m1) as -> by (destruct P1 as [?|[? _]]; congruence).
  assert (ns2 = m2) as -> by (destruct P2 as [?|[? _]]; congruence).
  assert (ns3 = m3) as -> by (destruct P3 as [?|[? _]]; congruence).
  unfold sibling in M1, M2, M3.
  split.
  - intros k. unfold public_names. rewrite !not_elem_of_cons.
    intros (? & ? & ? & ? & _).
    open_result. rewrite M1, M2, M3. by dict_simpl.
  - rewrite result_modules. unfold sibling.
    rewrite (insert_id _ _ _ M1), (insert_id _ _ _ M2).
    by apply insert_id.
Qed.

Lemma import_of_loaded_siblings_binds_exports_only_witness :
  (∀ m, m ∈ submodule_names →
     is_Some (sys_modules reload_state !! sibling m)) ∧
  exec (__init__ path_with_two_faults) reload_state = Ok reloaded_package ∧
  (∀ k, k ∉ "__all__" :: public_names →
     dict_get k (globals reloaded_package) = dict_get k (globals reload_state)) ∧
  sys_modules reloaded_package = sys_modules reload_state.
Proof.
  assert (∀ m, m ∈ submodule_names →
            is_Some (sys_modules reload_state !! sibling m)) as Hmods.
  { intros m. unfold submodule_names. rewrite !elem_of_cons, elem_of_nil.
    intros [->|[->|[->|[]]]]; eexists; vm_compute; reflexivity. }
  split; [exact Hmods |]. split; [run_sample |].
  apply (import_of_loaded_siblings_binds_exports_only
           path_with_two_faults reload_state); [exact Hmods | run_sample].
Defined.

End SiemBehaviour.
